(** * The data preparation and the queries of [streamlit_app.py]

    The script reads five Fitbit tables with pandas, parses their date
    columns, left-joins the daily activity with the sleep records, and
    shows cohort means and one user's day.  A data frame is modelled as the
    list of its rows, in row order; a column is the list of one field.
    Columns that the script never names are left out of the rows. *)

From Stdlib Require Import ZArith Bool String Lia List Sorted.
From Stdlib Require Import Floats.PrimFloat Numbers.Cyclic.Int63.Uint63.
Import ListNotations.
Local Open Scope Z_scope.

(** ** The pandas operations the script calls *)

Module Pandas.

(** A [datetime64[ns]] value: nanoseconds since the epoch, or [NaT]. *)
Definition Timestamp : Type := option Z.
Definition NaT : Timestamp := None.

(** A [datetime.date]: days since the epoch. *)
Definition Date : Type := Z.

Definition ns_per_day : Z := 86400 * 1000000000.

(** [pd.to_datetime(date)] for a [datetime.date]: midnight of that day. *)
Definition to_datetime_date (d : Date) : Timestamp := Some (d * ns_per_day).

(** [Timestamp.date()] and, elementwise, [Series.dt.date]. *)
Definition date_of (t : Timestamp) : option Date :=
  match t with
  | Some n => Some (n / ns_per_day)
  | None => None
  end.

(** The time of day left once the date is taken away. *)
Definition time_of_day (n : Z) : Z := n mod ns_per_day.

(** Elementwise [==] of a temporal column with a scalar: [NaT] equals
    nothing, itself included. *)
Definition ts_eq (a b : Timestamp) : bool :=
  match a, b with
  | Some x, Some y => x =? y
  | _, _ => false
  end.

(** [Series.dt.date == d]. *)
Definition date_eq (t : Timestamp) (d : option Date) : bool :=
  match date_of t, d with
  | Some x, Some y => x =? y
  | _, _ => false
  end.

(** Equality of join keys in [merge]: null keys match each other. *)
Definition ts_key_eq (a b : Timestamp) : bool :=
  match a, b with
  | Some x, Some y => x =? y
  | None, None => true
  | _, _ => false
  end.

(** [df[mask]]: the rows whose mask entry is true, in row order. *)
Definition mask {R : Type} (p : R -> bool) (df : list R) : list R :=
  filter p df.

(** The rows a left row contributes to a left join: one per matching
    right row, or one with the right columns null. *)
Definition left_rows {L R C : Type} (on : L -> R -> bool)
    (both : L -> R -> C) (left_only : L -> C) (right : list R) (l : L) : list C :=
  match filter (on l) right with
  | [] => [left_only l]
  | ms => map (both l) ms
  end.

(** [pd.merge(left, right, on=keys, how='left')]: every left row, in left
    order, with the rows it contributes. *)
Definition merge_left {L R C : Type} (on : L -> R -> bool)
    (both : L -> R -> C) (left_only : L -> C)
    (left : list L) (right : list R) : list C :=
  flat_map (left_rows on both left_only right) left.

(** [left.merge(right, on=key)] (how='inner'): the pairs of a left and a
    right row with equal keys, following the left rows. *)
Definition merge_inner {L R C : Type} (on : L -> R -> bool)
    (both : L -> R -> C) (left : list L) (right : list R) : list C :=
  flat_map (fun l => map (both l) (filter (on l) right)) left.

(** An [int64] converted to [float64]. *)
Definition float_of_int64 (z : Z) : float :=
  if z <? 0 then
    if z =? - 2 ^ 63 then PrimFloat.opp 9223372036854775808%float
    else PrimFloat.opp (PrimFloat.of_uint63 (Uint63.of_Z (- z)))
  else PrimFloat.of_uint63 (Uint63.of_Z z).

(** [Series / n] on an [int64] column: true division in [float64]. *)
Definition truediv (z : Z) (n : Z) : float :=
  PrimFloat.div (float_of_int64 z) (float_of_int64 n).

Definition notna (x : float) : bool := negb (PrimFloat.is_nan x).

(** [Series.sum()] of a float column; nulls are skipped. *)
Definition fsum (xs : list float) : float :=
  fold_left PrimFloat.add (filter notna xs) 0%float.

(** [Series.sum()] of an integer column. *)
Definition isum (xs : list Z) : Z := fold_left Z.add xs 0.

(** [Series.mean()] with the default [skipna=True]: the sum of the values
    that are not null over their number, and [nan] when there is none. *)
Definition mean (xs : list float) : float :=
  match filter notna xs with
  | [] => PrimFloat.nan
  | vs => PrimFloat.div (fold_left PrimFloat.add vs 0%float)
                        (float_of_int64 (Z.of_nat (List.length vs)))
  end.

(** [Series.mean()] of an [int64] column: summed as [float64]. *)
Definition mean_int (xs : list Z) : float := mean (map float_of_int64 xs).

(** The values of a temporal column that are not [NaT]. *)
Fixpoint dropna (xs : list Timestamp) : list Z :=
  match xs with
  | [] => []
  | Some n :: r => n :: dropna r
  | None :: r => dropna r
  end.

(** [Series.min()] and [Series.max()] of a temporal column: over the
    values that are not [NaT]; [NaT] when there is none. *)
Definition ts_min (xs : list Timestamp) : Timestamp :=
  match dropna xs with
  | [] => NaT
  | n :: r => Some (fold_left Z.min r n)
  end.

Definition ts_max (xs : list Timestamp) : Timestamp :=
  match dropna xs with
  | [] => NaT
  | n :: r => Some (fold_left Z.max r n)
  end.

(** A field of a date column as [read_csv] leaves it: text, or nothing. *)
Inductive Cell : Type :=
| Missing
| Text (s : string).

(** What [pd.to_datetime] raises on a text that is no date. *)
Inductive Exn : Type :=
| ValueError (s : string).

(** A call that returns or raises. *)
Definition Result (A : Type) : Type := (Exn + A)%type.

Definition ret {A : Type} (a : A) : Result A := inr a.
Definition raise {A : Type} (e : Exn) : Result A := inl e.
Definition bind {A B : Type} (c : Result A) (k : A -> Result B) : Result B :=
  match c with
  | inl e => inl e
  | inr a => k a
  end.

Section ToDatetime.

(** The text-to-instant parser of pandas, which is not part of the
    script: [None] for a text it does not accept. *)
Variable parse : string -> option Z.

Definition to_datetime_scalar (c : Cell) : Result Timestamp :=
  match c with
  | Missing => ret NaT
  | Text s =>
      match parse s with
      | Some n => ret (Some n)
      | None => raise (ValueError s)
      end
  end.

(** [pd.to_datetime(column)] with the default [errors='raise']: the
    first text that is no date raises, and nothing is returned. *)
Fixpoint to_datetime (col : list Cell) : Result (list Timestamp) :=
  match col with
  | [] => ret []
  | c :: r =>
      bind (to_datetime_scalar c) (fun t =>
      bind (to_datetime r) (fun ts => ret (t :: ts)))
  end.

End ToDatetime.

End Pandas.

Import Pandas.

(** ** The tables *)

(** Columns are looked up by name, whatever the table. *)
Class HasId (R : Type) : Type := Id : R -> Z.
Class HasActivityDate (R : Type) : Type := ActivityDate : R -> Timestamp.
Class HasActivityHour (R : Type) : Type := ActivityHour : R -> Timestamp.

(** A row of [dailyActivity_merged.csv]; [D] is what the date column holds:
    a [Cell] as read, a [Timestamp] once parsed. *)
Record DailyActivityRow (D : Type) : Type := mkDailyActivity {
  activity_Id : Z;
  activity_ActivityDate : D;
  TotalSteps : Z;
  TotalDistance : float;
  VeryActiveDistance : float;
  ModeratelyActiveDistance : float;
  LightActiveDistance : float;
  SedentaryActiveDistance : float;
  VeryActiveMinutes : Z;
  FairlyActiveMinutes : Z;
  LightlyActiveMinutes : Z;
  SedentaryMinutes : Z;
  activity_Calories : Z
}.
Arguments mkDailyActivity {D}.
Arguments activity_Id {D}.
Arguments activity_ActivityDate {D}.
Arguments TotalSteps {D}.
Arguments TotalDistance {D}.
Arguments VeryActiveDistance {D}.
Arguments ModeratelyActiveDistance {D}.
Arguments LightActiveDistance {D}.
Arguments SedentaryActiveDistance {D}.
Arguments VeryActiveMinutes {D}.
Arguments FairlyActiveMinutes {D}.
Arguments LightlyActiveMinutes {D}.
Arguments SedentaryMinutes {D}.
Arguments activity_Calories {D}.

(** A row of [sleepDay_merged.csv] as read. *)
Record SleepDayRow : Type := mkSleepDay {
  sleepday_Id : Z;
  SleepDay : Cell;
  sleepday_TotalMinutesAsleep : Z
}.

(** A row of [daily_sleep] once [SleepDay] is renamed and [SleepHours]
    added. *)
Record DailySleepRow (D : Type) : Type := mkDailySleep {
  sleep_Id : Z;
  sleep_ActivityDate : D;
  TotalMinutesAsleep : Z;
  SleepHours : float
}.
Arguments mkDailySleep {D}.
Arguments sleep_Id {D}.
Arguments sleep_ActivityDate {D}.
Arguments TotalMinutesAsleep {D}.
Arguments SleepHours {D}.

Record HourlyStepsRow (D : Type) : Type := mkHourlySteps {
  steps_Id : Z;
  steps_ActivityHour : D;
  StepTotal : Z
}.
Arguments mkHourlySteps {D}.
Arguments steps_Id {D}.
Arguments steps_ActivityHour {D}.
Arguments StepTotal {D}.

Record HourlyIntensityRow (D : Type) : Type := mkHourlyIntensity {
  intensity_Id : Z;
  intensity_ActivityHour : D;
  TotalIntensity : Z
}.
Arguments mkHourlyIntensity {D}.
Arguments intensity_Id {D}.
Arguments intensity_ActivityHour {D}.
Arguments TotalIntensity {D}.

Record HourlyCaloriesRow (D : Type) : Type := mkHourlyCalories {
  calories_Id : Z;
  calories_ActivityHour : D;
  Calories : Z
}.
Arguments mkHourlyCalories {D}.
Arguments calories_Id {D}.
Arguments calories_ActivityHour {D}.
Arguments Calories {D}.

#[global] Instance activity_HasId : HasId (DailyActivityRow Timestamp) := activity_Id.
#[global] Instance activity_HasActivityDate : HasActivityDate (DailyActivityRow Timestamp) :=
  activity_ActivityDate.
#[global] Instance sleep_HasId : HasId (DailySleepRow Timestamp) := sleep_Id.
#[global] Instance sleep_HasActivityDate : HasActivityDate (DailySleepRow Timestamp) :=
  sleep_ActivityDate.
#[global] Instance steps_HasId : HasId (HourlyStepsRow Timestamp) := steps_Id.
#[global] Instance steps_HasActivityHour : HasActivityHour (HourlyStepsRow Timestamp) :=
  steps_ActivityHour.
#[global] Instance intensity_HasId : HasId (HourlyIntensityRow Timestamp) := intensity_Id.
#[global] Instance intensity_HasActivityHour : HasActivityHour (HourlyIntensityRow Timestamp) :=
  intensity_ActivityHour.
#[global] Instance calories_HasId : HasId (HourlyCaloriesRow Timestamp) := calories_Id.
#[global] Instance calories_HasActivityHour : HasActivityHour (HourlyCaloriesRow Timestamp) :=
  calories_ActivityHour.

(** A row of [daily_combined]: the columns of the activity row, then the
    columns of the sleep row that are not join keys, null when the
    activity row found no sleep row. *)
Record DailyCombinedRow : Type := mkDailyCombined {
  activity : DailyActivityRow Timestamp;
  combined_TotalMinutesAsleep : option Z;
  Sleeping_Hours : float
}.

(** The renamed columns of [daily_combined] (lines 41-44). *)
Definition Steps (c : DailyCombinedRow) : Z := TotalSteps (activity c).
Definition Distance (c : DailyCombinedRow) : float := TotalDistance (activity c).
Definition Calories_Burned (c : DailyCombinedRow) : Z := activity_Calories (activity c).

(** A row of [hourly_data]: the columns of [hour_calories], then
    [TotalIntensity]. *)
Record HourlyDataRow : Type := mkHourlyData {
  data_Id : Z;
  data_ActivityHour : Timestamp;
  data_Calories : Z;
  data_TotalIntensity : Z
}.

(** What [read_csv] hands to [load_data] for the five files. *)
Record CsvFiles : Type := mkCsvFiles {
  dailyActivity_merged : list (DailyActivityRow Cell);
  sleepDay_merged : list SleepDayRow;
  hourlySteps_merged : list (HourlyStepsRow Cell);
  hourlyIntensities_merged : list (HourlyIntensityRow Cell);
  hourlyCalories_merged : list (HourlyCaloriesRow Cell)
}.

(** The six frames [load_data] returns, bound to the module's names at
    line 48. *)
Record Tables : Type := mkTables {
  daily_activity : list (DailyActivityRow Timestamp);
  daily_sleep : list (DailySleepRow Timestamp);
  hourly_steps : list (HourlyStepsRow Timestamp);
  hourly_intensity : list (HourlyIntensityRow Timestamp);
  hourly_calories : list (HourlyCaloriesRow Timestamp);
  daily_combined : list DailyCombinedRow
}.

(** ** [load_data] (lines 18-46) *)

(** [df[name] = column]: each row takes the entry of its position. *)
Definition assign_column {R V R' : Type} (set : R -> V -> R')
    (df : list R) (column : list V) : list R' :=
  map (fun rv => set (fst rv) (snd rv)) (combine df column).

Definition set_activity_ActivityDate {D D' : Type}
    (r : DailyActivityRow D) (d : D') : DailyActivityRow D' :=
  mkDailyActivity (activity_Id r) d (TotalSteps r) (TotalDistance r)
    (VeryActiveDistance r) (ModeratelyActiveDistance r)
    (LightActiveDistance r) (SedentaryActiveDistance r)
    (VeryActiveMinutes r) (FairlyActiveMinutes r)
    (LightlyActiveMinutes r) (SedentaryMinutes r) (activity_Calories r).

Definition set_sleep_ActivityDate {D D' : Type}
    (r : DailySleepRow D) (d : D') : DailySleepRow D' :=
  mkDailySleep (sleep_Id r) d (TotalMinutesAsleep r) (SleepHours r).

Definition set_steps_ActivityHour {D D' : Type}
    (r : HourlyStepsRow D) (d : D') : HourlyStepsRow D' :=
  mkHourlySteps (steps_Id r) d (StepTotal r).

Definition set_intensity_ActivityHour {D D' : Type}
    (r : HourlyIntensityRow D) (d : D') : HourlyIntensityRow D' :=
  mkHourlyIntensity (intensity_Id r) d (TotalIntensity r).

Definition set_calories_ActivityHour {D D' : Type}
    (r : HourlyCaloriesRow D) (d : D') : HourlyCaloriesRow D' :=
  mkHourlyCalories (calories_Id r) d (Calories r).

(** Lines 27-28: [SleepDay] becomes [ActivityDate], and [SleepHours] is
    [TotalMinutesAsleep / 60]. *)
Definition rename_SleepDay_add_SleepHours (r : SleepDayRow) : DailySleepRow Cell :=
  mkDailySleep (sleepday_Id r) (SleepDay r) (sleepday_TotalMinutesAsleep r)
    (truediv (sleepday_TotalMinutesAsleep r) 60).

(** The join keys of line 38: [on=['Id', 'ActivityDate']]. *)
Definition on_Id_ActivityDate (a : DailyActivityRow Timestamp)
    (s : DailySleepRow Timestamp) : bool :=
  (Id a =? Id s) && ts_key_eq (ActivityDate a) (ActivityDate s).

Definition with_sleep (a : DailyActivityRow Timestamp)
    (s : DailySleepRow Timestamp) : DailyCombinedRow :=
  mkDailyCombined a (Some (TotalMinutesAsleep s)) (SleepHours s).

Definition without_sleep (a : DailyActivityRow Timestamp) : DailyCombinedRow :=
  mkDailyCombined a None PrimFloat.nan.

(** Lines 38-44: the left join, whose columns are then renamed. *)
Definition merge_daily (activity_df : list (DailyActivityRow Timestamp))
    (sleep_df : list (DailySleepRow Timestamp)) : list DailyCombinedRow :=
  merge_left on_Id_ActivityDate with_sleep without_sleep activity_df sleep_df.

Section LoadData.

Variable parse : string -> option Z.

Notation "x <- c ;; k" := (bind c (fun x => k))
  (at level 61, c at next level, right associativity).

Definition load_data (csv : CsvFiles) : Result Tables :=
  let daily_activity := dailyActivity_merged csv in
  let daily_sleep := sleepDay_merged csv in
  let hourly_steps := hourlySteps_merged csv in
  let hourly_intensity := hourlyIntensities_merged csv in
  let hourly_calories := hourlyCalories_merged csv in
  let daily_sleep := map rename_SleepDay_add_SleepHours daily_sleep in
  dates <- to_datetime parse (map activity_ActivityDate daily_activity) ;;
  let daily_activity := assign_column set_activity_ActivityDate daily_activity dates in
  dates <- to_datetime parse (map sleep_ActivityDate daily_sleep) ;;
  let daily_sleep := assign_column set_sleep_ActivityDate daily_sleep dates in
  hours <- to_datetime parse (map calories_ActivityHour hourly_calories) ;;
  let hourly_calories := assign_column set_calories_ActivityHour hourly_calories hours in
  hours <- to_datetime parse (map steps_ActivityHour hourly_steps) ;;
  let hourly_steps := assign_column set_steps_ActivityHour hourly_steps hours in
  hours <- to_datetime parse (map intensity_ActivityHour hourly_intensity) ;;
  let hourly_intensity := assign_column set_intensity_ActivityHour hourly_intensity hours in
  let daily_combined := merge_daily daily_activity daily_sleep in
  ret (mkTables daily_activity daily_sleep hourly_steps hourly_intensity
         hourly_calories daily_combined).

End LoadData.

(** ** The queries of the page *)

(** Lines 56-59: the four cohort means. *)
Definition avg_steps (df : list DailyCombinedRow) : float := mean_int (map Steps df).
Definition avg_distance (df : list DailyCombinedRow) : float := mean (map Distance df).
Definition avg_calories (df : list DailyCombinedRow) : float :=
  mean_int (map Calories_Burned df).
Definition avg_sleep (df : list DailyCombinedRow) : float := mean (map Sleeping_Hours df).

(** Lines 103-105. *)
Definition user_df (user : Z) (df : list (DailyActivityRow Timestamp)) :
    list (DailyActivityRow Timestamp) :=
  mask (fun r => Id r =? user) df.

Definition user_min_date (user : Z) (df : list (DailyActivityRow Timestamp)) : Timestamp :=
  ts_min (map ActivityDate (user_df user df)).

Definition user_max_date (user : Z) (df : list (DailyActivityRow Timestamp)) : Timestamp :=
  ts_max (map ActivityDate (user_df user df)).

(** Line 110. *)
Definition day_df (user : Z) (date : Date) (df : list (DailyActivityRow Timestamp)) :
    list (DailyActivityRow Timestamp) :=
  mask (fun r => ts_eq (ActivityDate r) (to_datetime_date date)) (user_df user df).

(** Lines 117-120: the column sums of the day's rows. *)
Definition total_minutes (day : list (DailyActivityRow Timestamp)) : Z * Z * Z * Z :=
  (isum (map VeryActiveMinutes day), isum (map FairlyActiveMinutes day),
   isum (map LightlyActiveMinutes day), isum (map SedentaryMinutes day)).

Definition distances (day : list (DailyActivityRow Timestamp)) :
    float * float * float * float :=
  (fsum (map VeryActiveDistance day), fsum (map ModeratelyActiveDistance day),
   fsum (map LightActiveDistance day), fsum (map SedentaryActiveDistance day)).

(** Lines 13-16. *)
Definition get_user_df {R : Type} `{HasId R} `{HasActivityHour R}
    (user : Z) (date : Date) (df : list R) : list R :=
  let user_df := mask (fun r => Id r =? user) df in
  let day_df :=
    mask (fun r => date_eq (ActivityHour r) (date_of (to_datetime_date date))) user_df in
  day_df.

(** Line 148: [hour_intensity[['ActivityHour', 'TotalIntensity']]] merged
    into [hour_calories] on [ActivityHour]. *)
Definition hourly_data (hour_calories : list (HourlyCaloriesRow Timestamp))
    (hour_intensity : list (HourlyIntensityRow Timestamp)) : list HourlyDataRow :=
  merge_inner
    (fun c i => ts_key_eq (ActivityHour c) (fst i))
    (fun c i => mkHourlyData (Id c) (ActivityHour c) (Calories c) (snd i))
    hour_calories
    (map (fun i => (ActivityHour i, TotalIntensity i)) hour_intensity).

(** ** The page as a program over the module's tables

    The six tables are module-level names; everything below line 48 reads
    them.  A block of the script is a function from the tables to its
    result and the tables it leaves.  The blocks under [if user:] (line
    102) and [if date:] (line 109) run once a user and a date are picked:
    they are functions of the picked values. *)

Definition Script (A : Type) : Type := Tables -> A * Tables.

Definition pure {A : Type} (a : A) : Script A := fun T => (a, T).

Definition then_ {A B : Type} (c : Script A) (k : A -> Script B) : Script B :=
  fun T => let (a, T') := c T in k a T'.

(** Reading a module-level name. *)
Definition global {A : Type} (name : Tables -> A) : Script A := fun T => (name T, T).

(** Binding the module-level names (line 48). *)
Definition assign_globals (T' : Tables) : Script unit := fun _ => (tt, T').

Notation "x <~ c ;; k" := (then_ c (fun x => k))
  (at level 61, c at next level, right associativity).

(** The four means of the overview (lines 56-59). *)
Definition CohortAggregate : Script (float * float * float * float) :=
  df <~ global daily_combined ;;
  pure (avg_steps df, avg_distance df, avg_calories df, avg_sleep df).


(** What the page shows for a user and a day (lines 110-148). *)
Record Slice : Type := mkSlice {
  slice_day_df : list (DailyActivityRow Timestamp);
  slice_total_minutes : Z * Z * Z * Z;
  slice_distances : float * float * float * float;
  hour_calories : list (HourlyCaloriesRow Timestamp);
  hour_steps : list (HourlyStepsRow Timestamp);
  hour_intensity : list (HourlyIntensityRow Timestamp);
  slice_hourly_data : list HourlyDataRow
}.

Definition UserDaySlice (user : Z) (date : Date) : Script Slice :=
  activity_df <~ global daily_activity ;;
  let day := day_df user date activity_df in
  calories_df <~ global hourly_calories ;;
  let hour_calories := get_user_df user date calories_df in
  steps_df <~ global hourly_steps ;;
  let hour_steps := get_user_df user date steps_df in
  intensity_df <~ global hourly_intensity ;;
  let hour_intensity := get_user_df user date intensity_df in
  pure (mkSlice day (total_minutes day) (distances day)
          hour_calories hour_steps hour_intensity
          (hourly_data hour_calories hour_intensity)).





(** ** More of the page *)

(** [Series.unique()]: the values in order of first appearance. *)
Fixpoint unique (xs : list Z) : list Z :=
  match xs with
  | [] => []
  | x :: r => x :: filter (fun y => negb (y =? x)) (unique r)
  end.

(** Line 101: the ids the user picker offers. *)
Definition user_options (df : list (DailyActivityRow Timestamp)) : list Z :=
  unique (map Id df).





(** ** Sample data *)

(** The day number of a calendar date (proleptic Gregorian). *)
Definition ymd (y m d : Z) : Date :=
  let y' := if m <=? 2 then y - 1 else y in
  let era := y' / 400 in
  let yoe := y' - era * 400 in
  let mp := (m + 9) mod 12 in
  let doy := (153 * mp + 2) / 5 + d - 1 in
  let doe := yoe * 365 + yoe / 4 - yoe / 100 + doy in
  era * 146097 + doe - 719468.

Definition ns_per_hour : Z := 3600 * 1000000000.

(** The instant [h] hours into day [d]. *)
Definition at_hour (d : Date) (h : Z) : Timestamp := Some (d * ns_per_day + h * ns_per_hour).

(** A day of user [id]: 10000 steps, 6.5 km, 2000 kcal. *)
Definition sample_activity {D : Type} (id : Z) (d : D) : DailyActivityRow D :=
  mkDailyActivity id d 10000 6.5%float 2.5%float 1%float 3%float 0%float
    30 20 200 700 2000.

Definition sample_sleep (id : Z) (t : Timestamp) (minutes : Z) : DailySleepRow Timestamp :=
  mkDailySleep id t minutes (truediv minutes 60).

(** A parser that knows the texts of the samples. *)
Definition sample_parse (s : string) : option Z :=
  if String.eqb s "4/10/2016" then Some (ymd 2016 4 10 * ns_per_day)
  else if String.eqb s "4/11/2016" then Some (ymd 2016 4 11 * ns_per_day)
  else if String.eqb s "4/12/2016" then Some (ymd 2016 4 12 * ns_per_day)
  else if String.eqb s "4/12/2016 12:00:00 AM" then Some (ymd 2016 4 12 * ns_per_day)
  else if String.eqb s "4/12/2016 8:00:00 AM" then
    Some (ymd 2016 4 12 * ns_per_day + 8 * ns_per_hour)
  else if String.eqb s "4/12/2016 9:00:00 AM" then
    Some (ymd 2016 4 12 * ns_per_day + 9 * ns_per_hour)
  else None.

Definition sample_csv : CsvFiles :=
  mkCsvFiles
    [sample_activity 1 (Text "4/12/2016"); sample_activity 1 (Text "4/11/2016")]
    [mkSleepDay 1 (Text "4/12/2016 12:00:00 AM") 360]
    [mkHourlySteps 1 (Text "4/12/2016 8:00:00 AM") 400]
    [mkHourlyIntensity 1 (Text "4/12/2016 8:00:00 AM") 5]
    [mkHourlyCalories 1 (Text "4/12/2016 8:00:00 AM") 50;
     mkHourlyCalories 1 (Text "4/12/2016 9:00:00 AM") 60].

(** The same files with one date that is no date. *)
Definition broken_csv : CsvFiles :=
  mkCsvFiles
    (dailyActivity_merged sample_csv)
    (sleepDay_merged sample_csv)
    [mkHourlySteps 1 (Text "yesterday") 400]
    (hourlyIntensities_merged sample_csv)
    (hourlyCalories_merged sample_csv).

(** ** The vocabulary of the statements *)

(** The join key of a sleep row. *)
Definition sleep_key (s : DailySleepRow Timestamp) : Z * Timestamp :=
  (Id s, ActivityDate s).

(** Whether the activity part of a combined row has a sleep row of its
    key. *)
Definition has_sleep (sleep : list (DailySleepRow Timestamp)) (c : DailyCombinedRow) : bool :=
  existsb (on_Id_ActivityDate (activity c)) sleep.


(** NaT sorts last, as pandas has it. *)
Definition ts_le (a b : Timestamp) : Prop :=
  match a, b with
  | Some x, Some y => x <= y
  | _, None => True
  | None, Some _ => False
  end.

(** A frame in ascending order of [ActivityHour]. *)
Definition ascending {R : Type} `{HasActivityHour R} (df : list R) : Prop :=
  StronglySorted (fun r1 r2 => ts_le (ActivityHour r1) (ActivityHour r2)) df.

(** The dates a user's rows carry. *)
Definition user_dates (user : Z) (df : list (DailyActivityRow Timestamp)) : list Z :=
  dropna (map ActivityDate (user_df user df)).


(** What a field becomes when it can be parsed: a missing field is NaT. *)
Definition cell_value (parse : string -> option Z) (c : Cell) : Timestamp :=
  match c with
  | Missing => NaT
  | Text s => parse s
  end.


(** The tables of a load that returns: every row of every file, its date
    field parsed. *)
Definition loaded_activity (parse : string -> option Z) (csv : CsvFiles) :
    list (DailyActivityRow Timestamp) :=
  map (fun r => set_activity_ActivityDate r (cell_value parse (activity_ActivityDate r)))
    (dailyActivity_merged csv).

Definition loaded_sleep (parse : string -> option Z) (csv : CsvFiles) :
    list (DailySleepRow Timestamp) :=
  map (fun r => mkDailySleep (sleepday_Id r) (cell_value parse (SleepDay r))
                  (sleepday_TotalMinutesAsleep r)
                  (truediv (sleepday_TotalMinutesAsleep r) 60))
    (sleepDay_merged csv).

Definition loaded_steps (parse : string -> option Z) (csv : CsvFiles) :
    list (HourlyStepsRow Timestamp) :=
  map (fun r => set_steps_ActivityHour r (cell_value parse (steps_ActivityHour r)))
    (hourlySteps_merged csv).

Definition loaded_intensity (parse : string -> option Z) (csv : CsvFiles) :
    list (HourlyIntensityRow Timestamp) :=
  map (fun r => set_intensity_ActivityHour r (cell_value parse (intensity_ActivityHour r)))
    (hourlyIntensities_merged csv).

Definition loaded_calories (parse : string -> option Z) (csv : CsvFiles) :
    list (HourlyCaloriesRow Timestamp) :=
  map (fun r => set_calories_ActivityHour r (cell_value parse (calories_ActivityHour r)))
    (hourlyCalories_merged csv).

(** The rows of a frame at a given hour. *)
Definition rows_at {R : Type} `{HasActivityHour R} (h : Timestamp) (df : list R) : list R :=
  filter (fun r => ts_key_eq (ActivityHour r) h) df.

(** Whether an hour of [hour_calories] has a row in [hour_intensity]. *)
Definition has_intensity (hour_intensity : list (HourlyIntensityRow Timestamp))
    (c : HourlyCaloriesRow Timestamp) : bool :=
  existsb (fun i => ts_key_eq (ActivityHour c) (ActivityHour i)) hour_intensity.

(** The columns of a row of [hourly_data] that come from [hour_calories]. *)
Definition calories_part (row : HourlyDataRow) : HourlyCaloriesRow Timestamp :=
  mkHourlyCalories (data_Id row) (data_ActivityHour row) (data_Calories row).

(** The join key of an activity row. *)
Definition activity_key (a : DailyActivityRow Timestamp) : Z * Timestamp :=
  (Id a, ActivityDate a).


(** ** More samples *)

Definition activity_2016_04_12 : DailyActivityRow Timestamp :=
  sample_activity 1 (at_hour (ymd 2016 4 12) 0).

(** Two records of the same night, as the sleep file may hold them. *)
Definition sleep_twice : list (DailySleepRow Timestamp) :=
  [sample_sleep 1 (at_hour (ymd 2016 4 12) 0) 360;
   sample_sleep 1 (at_hour (ymd 2016 4 12) 0) 360].

(** The scenario of the specification: calories at 08:00 and 09:00,
    intensity at 08:00 only. *)
Definition scenario_tables : Tables :=
  mkTables
    [activity_2016_04_12] []
    [mkHourlySteps 1 (at_hour (ymd 2016 4 12) 8) 400;
     mkHourlySteps 1 (at_hour (ymd 2016 4 12) 9) 500]
    [mkHourlyIntensity 1 (at_hour (ymd 2016 4 12) 8) 5]
    [mkHourlyCalories 1 (at_hour (ymd 2016 4 12) 8) 50;
     mkHourlyCalories 1 (at_hour (ymd 2016 4 12) 9) 60]
    [without_sleep activity_2016_04_12].

(** Two hours of user 1 stored latest first. *)
Definition steps_latest_first : list (HourlyStepsRow Timestamp) :=
  [mkHourlySteps 1 (at_hour (ymd 2016 4 12) 9) 500;
   mkHourlySteps 1 (at_hour (ymd 2016 4 12) 8) 400].

(** A day of user 1 whose date was stored with 08:00 as its time. *)
Definition activity_at_8 : DailyActivityRow Timestamp :=
  sample_activity 1 (at_hour (ymd 2016 4 12) 8).

(** Three days of user 1, stored out of order, and a day of user 2. *)
Definition three_days : Tables :=
  mkTables
    [sample_activity 1 (at_hour (ymd 2016 4 10) 0);
     sample_activity 2 (at_hour (ymd 2016 4 9) 0);
     sample_activity 1 (at_hour (ymd 2016 4 12) 0);
     sample_activity 1 (at_hour (ymd 2016 4 11) 0)]
    [] [] [] [] [].

(** The tables the sample files load to. *)
Definition sample_tables : Tables :=
  mkTables (loaded_activity sample_parse sample_csv) (loaded_sleep sample_parse sample_csv)
    (loaded_steps sample_parse sample_csv) (loaded_intensity sample_parse sample_csv)
    (loaded_calories sample_parse sample_csv)
    (merge_daily (loaded_activity sample_parse sample_csv)
       (loaded_sleep sample_parse sample_csv)).

(** ** Sanity checks of the model on the samples *)

Example ymd_2016_04_12 : ymd 2016 4 12 = 16903 /\ ymd 1970 1 1 = 0.
Proof. split; reflexivity. Qed.

Example load_sample_csv :
  exists T, load_data sample_parse sample_csv = inr T /\
            map Steps (daily_combined T) = [10000; 10000] /\
            map combined_TotalMinutesAsleep (daily_combined T) = [Some 360; None].
Proof. eexists. split; [ reflexivity | split; reflexivity ]. Qed.

Example load_broken_csv :
  load_data sample_parse broken_csv = inl (ValueError "yesterday").
Proof. reflexivity. Qed.

(** ** Facts about the pandas operations *)

Section MergeFacts.

Context {L R C : Type}.
Variable on : L -> R -> bool.
Variable both : L -> R -> C.
Variable left_only : L -> C.

Lemma left_rows_length (right : list R) (l : L) :
  length (left_rows on both left_only right l) = Nat.max 1 (length (filter (on l) right)).
Proof.
  unfold left_rows.
  destruct (filter (on l) right) as [|m ms]; simpl.
  - reflexivity.
  - now rewrite length_map.
Qed.

Lemma merge_left_length (left : list L) (right : list R) :
  length (merge_left on both left_only left right)
  = list_sum (map (fun l => Nat.max 1 (length (filter (on l) right))) left).
Proof.
  unfold merge_left.
  unfold list_sum.
  induction left as [|l left IH]; cbn [flat_map map fold_right].
  - reflexivity.
  - now rewrite length_app, IH, left_rows_length.
Qed.

Lemma merge_left_at_least (left : list L) (right : list R) :
  (length left <= length (merge_left on both left_only left right))%nat.
Proof.
  rewrite merge_left_length.
  unfold list_sum.
  induction left as [|l left IH]; cbn [map fold_right length]; lia.
Qed.

(** When every left row has at most one match, a projection [back] that
    recovers the left row recovers the left table. *)
Lemma merge_left_one_to_one (back : C -> L) (left : list L) (right : list R) :
  (forall l r, back (both l r) = l) ->
  (forall l, back (left_only l) = l) ->
  (forall l, In l left -> (length (filter (on l) right) <= 1)%nat) ->
  map back (merge_left on both left_only left right) = left.
Proof.
  intros Hboth Honly.
  unfold merge_left.
  induction left as [|l left IH]; intros Hone; cbn [flat_map map].
  - reflexivity.
  - rewrite map_app, IH by (intros; apply Hone; now right).
    specialize (Hone l (or_introl eq_refl)).
    unfold left_rows.
    destruct (filter (on l) right) as [|m [|m' ms]]; cbn [map app length] in *.
    + now rewrite Honly.
    + now rewrite Hboth.
    + lia.
Qed.

Lemma merge_left_covers (back : C -> L) (left : list L) (right : list R) (l : L) :
  (forall l r, back (both l r) = l) ->
  (forall l, back (left_only l) = l) ->
  In l left ->
  In l (map back (merge_left on both left_only left right)).
Proof.
  intros Hboth Honly Hin.
  apply in_map_iff.
  unfold merge_left.
  destruct (filter (on l) right) as [|m ms] eqn:E.
  - exists (left_only l). split; [apply Honly|].
    apply in_flat_map. exists l. split; [assumption|].
    unfold left_rows. rewrite E. now left.
  - exists (both l m). split; [apply Hboth|].
    apply in_flat_map. exists l. split; [assumption|].
    unfold left_rows. rewrite E. now left.
Qed.

Lemma in_merge_left (left : list L) (right : list R) (c : C) :
  In c (merge_left on both left_only left right) <->
  exists l, In l left /\
    ((filter (on l) right = [] /\ c = left_only l) \/
     (exists r, In r right /\ on l r = true /\ c = both l r)).
Proof.
  unfold merge_left. rewrite in_flat_map.
  split.
  - intros (l & Hl & Hc). exists l. split; [assumption|].
    unfold left_rows in Hc.
    destruct (filter (on l) right) as [|m ms] eqn:E.
    + left. split; [reflexivity|]. destruct Hc as [Hc|[]]. now symmetry.
    + right. apply in_map_iff in Hc. destruct Hc as (r & Hr & Hin).
      rewrite <- E in Hin. apply filter_In in Hin.
      exists r. now repeat split.
  - intros (l & Hl & [[E Hc]|(r & Hr & Hon & Hc)]); exists l; (split; [assumption|]);
      unfold left_rows.
    + rewrite E. now left.
    + assert (Hin : In r (filter (on l) right)) by (apply filter_In; now split).
      destruct (filter (on l) right) as [|m ms]; [destruct Hin|].
      subst c. now apply in_map.
Qed.

Lemma in_merge_inner (left : list L) (right : list R) (c : C) :
  In c (merge_inner on both left right) <->
  exists l r, In l left /\ In r right /\ on l r = true /\ c = both l r.
Proof.
  unfold merge_inner. rewrite in_flat_map.
  split.
  - intros (l & Hl & Hc). apply in_map_iff in Hc.
    destruct Hc as (r & Hr & Hin). apply filter_In in Hin.
    exists l, r. now repeat split.
  - intros (l & r & Hl & Hr & Hon & Hc). exists l. split; [assumption|].
    subst c. apply in_map. apply filter_In. now split.
Qed.

End MergeFacts.

(** A key that occurs once selects at most one row. *)
Lemma filter_unique_key {A K : Type} (key : A -> K) (p : A -> bool) (k : K) (l : list A) :
  NoDup (map key l) ->
  (forall x, p x = true -> key x = k) ->
  (length (filter p l) <= 1)%nat.
Proof.
  intros Hnd Hp.
  induction l as [|x l IH]; simpl; [lia|].
  inversion Hnd as [|? ? Hnotin Hnd']; subst.
  destruct (p x) eqn:Epx; [|now apply IH].
  assert (Hnone : filter p l = []).
  { destruct (filter p l) as [|y ys] eqn:E; [reflexivity|].
    exfalso. apply Hnotin.
    assert (Hy : In y (filter p l)) by (rewrite E; now left).
    apply filter_In in Hy. destruct Hy as [Hy Hpy].
    rewrite (Hp x Epx), <- (Hp y Hpy). now apply in_map. }
  rewrite Hnone. simpl. lia.
Qed.

Lemma ts_key_eq_true (a b : Timestamp) : ts_key_eq a b = true <-> a = b.
Proof.
  destruct a as [x|], b as [y|]; simpl; split; intro H;
    try discriminate; try reflexivity.
  - apply Z.eqb_eq in H. now subst.
  - injection H as ->. apply Z.eqb_refl.
Qed.

Lemma ts_eq_true (a b : Timestamp) :
  ts_eq a b = true <-> exists n, a = Some n /\ b = Some n.
Proof.
  destruct a as [x|], b as [y|]; simpl; split; intro H; try discriminate;
    try (destruct H as (n & H1 & H2); discriminate).
  - apply Z.eqb_eq in H. subst. now exists y.
  - destruct H as (n & H1 & H2). injection H1 as ->. injection H2 as ->.
    apply Z.eqb_refl.
Qed.

Lemma on_Id_ActivityDate_true a s :
  on_Id_ActivityDate a s = true <-> sleep_key s = (Id a, ActivityDate a).
Proof.
  unfold on_Id_ActivityDate, sleep_key.
  rewrite andb_true_iff, Z.eqb_eq, ts_key_eq_true.
  split.
  - intros [-> ->]. reflexivity.
  - intros H. injection H as -> ->. now split.
Qed.

Lemma load_data_daily_combined parse csv T :
  load_data parse csv = inr T ->
  daily_combined T = merge_daily (daily_activity T) (daily_sleep T).
Proof.
  unfold load_data, bind, ret.
  repeat match goal with
         | |- context [match to_datetime ?p ?c with _ => _ end] =>
             destruct (to_datetime p c); [discriminate|]
         end.
  intros H. injection H as <-. reflexivity.
Qed.

(** ** The claims *)

(** C1, as stated, fails: one activity row and two sleep rows of its key
    give two combined rows. *)
Lemma merge_daily_duplicates_activity_row :
  length (merge_daily [activity_2016_04_12] sleep_twice) = 2%nat /\
  length [activity_2016_04_12] = 1%nat.
Proof. split; reflexivity. Qed.

(** C1 (amended): the left join keeps every DailyActivity row and drops
    none; it has one row per matching DailySleep row (and one for a row
    without match), so at least as many rows as DailyActivity; when no two
    DailySleep rows share their (Id, ActivityDate) key, DailyCombined
    holds the DailyActivity rows once each, in their order, hence as many
    rows as DailyActivity. *)
Theorem merge_daily_row_count :
  forall (act : list (DailyActivityRow Timestamp)) (sleep : list (DailySleepRow Timestamp)),
    (forall a, In a act -> In a (map activity (merge_daily act sleep))) /\
    (length act <= length (merge_daily act sleep))%nat /\
    length (merge_daily act sleep)
    = list_sum (map (fun a => Nat.max 1 (length (filter (on_Id_ActivityDate a) sleep))) act) /\
    (NoDup (map sleep_key sleep) ->
     map activity (merge_daily act sleep) = act /\
     length (merge_daily act sleep) = length act).
Proof.
  intros act sleep. unfold merge_daily.
  split; [|split; [|split]].
  - intros a Ha. now apply merge_left_covers.
  - apply merge_left_at_least.
  - apply merge_left_length.
  - intros Hnd.
    assert (Hmap : map activity
                     (merge_left on_Id_ActivityDate with_sleep without_sleep act sleep) = act).
    { apply merge_left_one_to_one; try reflexivity.
      intros a _.
      apply (filter_unique_key sleep_key _ (Id a, ActivityDate a)); [assumption|].
      intros s Hs. now apply on_Id_ActivityDate_true. }
    split; [assumption|].
    rewrite <- Hmap at 2. now rewrite length_map.
Qed.

Lemma merge_daily_row_count_witness :
  NoDup (map sleep_key [sample_sleep 1 (at_hour (ymd 2016 4 12) 0) 360]) /\
  length (merge_daily [activity_2016_04_12; sample_activity 1 (at_hour (ymd 2016 4 11) 0)]
            [sample_sleep 1 (at_hour (ymd 2016 4 12) 0) 360]) = 2%nat.
Proof.
  assert (Hnd : NoDup (map sleep_key [sample_sleep 1 (at_hour (ymd 2016 4 12) 0) 360])).
  { constructor; [intros []|constructor]. }
  split; [exact Hnd|].
  exact (proj2 (proj2 (proj2 (proj2
           (merge_daily_row_count
              [activity_2016_04_12; sample_activity 1 (at_hour (ymd 2016 4 11) 0)]
              [sample_sleep 1 (at_hour (ymd 2016 4 12) 0) 360]))) Hnd)).
Defined.

(** ** Means and nulls *)

Lemma nan_is_not_zero : PrimFloat.nan <> 0%float.
Proof.
  intros H.
  assert (E : PrimFloat.is_nan PrimFloat.nan = PrimFloat.is_nan 0%float) by now rewrite H.
  vm_compute in E. discriminate.
Qed.




Lemma existsb_false_filter {A : Type} (p : A -> bool) (l : list A) :
  existsb p l = false <-> filter p l = [].
Proof.
  induction l as [|x l IH]; cbn [existsb filter]; [tauto|].
  destruct (p x); cbn [orb]; [split; discriminate|exact IH].
Qed.



(** C2, as stated, fails: on an empty table each of the four means is
    NaN. *)
Lemma means_of_empty_table_are_nan :
  PrimFloat.is_nan (avg_steps []) = true /\
  PrimFloat.is_nan (avg_distance []) = true /\
  PrimFloat.is_nan (avg_calories []) = true /\
  PrimFloat.is_nan (avg_sleep []) = true.
Proof. repeat split; reflexivity. Qed.

(** C2 (amended): when DailyCombined is empty, CohortAggregate returns,
    without failing, NaN (the missing value of pandas) for each of Steps,
    Distance, Calories Burned and Sleeping Hours, which is not zero. *)
Theorem CohortAggregate_empty_table :
  forall T : Tables,
    daily_combined T = [] ->
    fst (CohortAggregate T) = (PrimFloat.nan, PrimFloat.nan, PrimFloat.nan, PrimFloat.nan) /\
    PrimFloat.nan <> 0%float.
Proof.
  intros T HT.
  split; [|exact nan_is_not_zero].
  unfold CohortAggregate, then_, global, pure. cbn [fst].
  rewrite HT. reflexivity.
Qed.

Lemma CohortAggregate_empty_table_witness :
  fst (CohortAggregate (mkTables [] [sample_sleep 1 (at_hour (ymd 2016 4 12) 0) 360] [] [] [] []))
  = (PrimFloat.nan, PrimFloat.nan, PrimFloat.nan, PrimFloat.nan).
Proof.
  exact (proj1 (CohortAggregate_empty_table
                  (mkTables [] [sample_sleep 1 (at_hour (ymd 2016 4 12) 0) 360] [] [] [] [])
                  eq_refl)).
Defined.



(** ** The slices of a user's day *)

Lemma date_of_to_datetime_date (d : Date) : date_of (to_datetime_date d) = Some d.
Proof.
  unfold date_of, to_datetime_date.
  rewrite Z.div_mul; [reflexivity|]. unfold ns_per_day. lia.
Qed.

Lemma date_eq_true (t : Timestamp) (d : Date) :
  date_eq t (Some d) = true <-> exists n, t = Some n /\ n / ns_per_day = d.
Proof.
  unfold date_eq, date_of.
  destruct t as [n|]; split; intro H; try discriminate.
  - exists n. split; [reflexivity|]. now apply Z.eqb_eq.
  - destruct H as (m & Hm & Hd). injection Hm as ->. now apply Z.eqb_eq.
  - destruct H as (m & Hm & _). discriminate.
Qed.

Lemma StronglySorted_filter {A : Type} (le : A -> A -> Prop) (p : A -> bool) (l : list A) :
  StronglySorted le l -> StronglySorted le (filter p l).
Proof.
  induction 1 as [|x l Hsorted IH Hall]; cbn [filter].
  - constructor.
  - destruct (p x); [|exact IH].
    constructor; [exact IH|].
    apply Forall_forall. intros y Hy. apply filter_In in Hy.
    rewrite Forall_forall in Hall. now apply Hall.
Qed.

Section GetUserDf.

Context {R : Type} `{HasId R} `{HasActivityHour R}.

Lemma get_user_df_filter (u : Z) (d : Date) (df : list R) :
  get_user_df u d df
  = filter (fun r => (Id r =? u) && date_eq (ActivityHour r) (Some d)) df.
Proof.
  unfold get_user_df, mask. rewrite date_of_to_datetime_date.
  induction df as [|r df IH]; cbn [filter]; [reflexivity|].
  destruct (Id r =? u); cbn [filter andb].
  - destruct (date_eq (ActivityHour r) (Some d)); now rewrite IH.
  - exact IH.
Qed.

Lemma in_get_user_df (u : Z) (d : Date) (df : list R) (r : R) :
  In r (get_user_df u d df) <->
  In r df /\ Id r = u /\ exists n, ActivityHour r = Some n /\ n / ns_per_day = d.
Proof.
  rewrite get_user_df_filter, filter_In, andb_true_iff, Z.eqb_eq, date_eq_true.
  tauto.
Qed.

Lemma get_user_df_ascending (u : Z) (d : Date) (df : list R) :
  ascending df -> ascending (get_user_df u d df).
Proof.
  unfold ascending. rewrite get_user_df_filter. apply StronglySorted_filter.
Qed.

End GetUserDf.

Lemma UserDaySlice_parts (u : Z) (d : Date) (T : Tables) :
  UserDaySlice u d T
  = (mkSlice (day_df u d (daily_activity T))
       (total_minutes (day_df u d (daily_activity T)))
       (distances (day_df u d (daily_activity T)))
       (get_user_df u d (hourly_calories T))
       (get_user_df u d (hourly_steps T))
       (get_user_df u d (hourly_intensity T))
       (hourly_data (get_user_df u d (hourly_calories T))
          (get_user_df u d (hourly_intensity T))),
     T).
Proof. reflexivity. Qed.

Lemma in_hourly_data hc hi (row : HourlyDataRow) :
  In row (hourly_data hc hi) <->
  exists c i, In c hc /\ In i hi /\ ActivityHour c = ActivityHour i /\
              row = mkHourlyData (Id c) (ActivityHour c) (Calories c) (TotalIntensity i).
Proof.
  unfold hourly_data. rewrite in_merge_inner.
  split.
  - intros (c & p & Hc & Hp & Hon & Hrow).
    apply in_map_iff in Hp. destruct Hp as (i & <- & Hi).
    cbn [fst snd] in *. apply ts_key_eq_true in Hon.
    exists c, i. now repeat split.
  - intros (c & i & Hc & Hi & Hh & Hrow).
    exists c, (ActivityHour i, TotalIntensity i).
    repeat split; try assumption.
    + apply in_map_iff. now exists i.
    + cbn [fst]. now apply ts_key_eq_true.
Qed.

(** C4: the combined hourly view is the inner join of the user's day of
    HourlyCalories with that of HourlyIntensity on ActivityHour: its rows
    are the pairs of a calories row and an intensity row of the same
    hour, so its hours are those present in both, each with that hour's
    Calories and TotalIntensity; the steps of the day are read from
    HourlySteps alone.  In the scenario the view is the single row
    (08:00, 50, 5). *)
Theorem hourly_data_inner_join :
  forall (T : Tables) (u : Z) (d : Date),
    slice_hourly_data (fst (UserDaySlice u d T))
    = hourly_data (hour_calories (fst (UserDaySlice u d T)))
        (hour_intensity (fst (UserDaySlice u d T))) /\
    (forall row, In row (slice_hourly_data (fst (UserDaySlice u d T))) <->
       exists c i,
         In c (hour_calories (fst (UserDaySlice u d T))) /\
         In i (hour_intensity (fst (UserDaySlice u d T))) /\
         ActivityHour c = ActivityHour i /\
         row = mkHourlyData (Id c) (ActivityHour c) (Calories c) (TotalIntensity i)) /\
    (forall h, In h (map data_ActivityHour (slice_hourly_data (fst (UserDaySlice u d T)))) <->
       In h (map ActivityHour (hour_calories (fst (UserDaySlice u d T)))) /\
       In h (map ActivityHour (hour_intensity (fst (UserDaySlice u d T))))) /\
    hour_steps (fst (UserDaySlice u d T)) = get_user_df u d (hourly_steps T) /\
    slice_hourly_data (fst (UserDaySlice 1 (ymd 2016 4 12) scenario_tables))
    = [mkHourlyData 1 (at_hour (ymd 2016 4 12) 8) 50 5] /\
    hour_steps (fst (UserDaySlice 1 (ymd 2016 4 12) scenario_tables))
    = hourly_steps scenario_tables.
Proof.
  intros T u d. rewrite UserDaySlice_parts.
  cbn [fst slice_hourly_data hour_calories hour_intensity hour_steps].
  split; [reflexivity|].
  split; [intros row; apply in_hourly_data|].
  split; [|split; [reflexivity|split; reflexivity]].
  intros h. rewrite !in_map_iff. split.
  - intros (row & Hh & Hrow). apply in_hourly_data in Hrow.
    destruct Hrow as (c & i & Hc & Hi & Heq & ->). cbn [data_ActivityHour] in Hh.
    split; [exists c|exists i]; split; congruence.
  - intros [(c & Hhc & Hc) (i & Hhi & Hi)].
    exists (mkHourlyData (Id c) (ActivityHour c) (Calories c) (TotalIntensity i)).
    split; [exact Hhc|].
    apply in_hourly_data. exists c, i. repeat split; congruence.
Qed.

(** C5, as stated, fails: rows stored out of order come back out of
    order. *)
Lemma get_user_df_does_not_sort :
  get_user_df 1 (ymd 2016 4 12) steps_latest_first = steps_latest_first /\
  ~ ascending (get_user_df 1 (ymd 2016 4 12) steps_latest_first).
Proof.
  split; [reflexivity|].
  intros Hs. change (get_user_df 1 (ymd 2016 4 12) steps_latest_first)
    with steps_latest_first in Hs.
  unfold ascending, steps_latest_first in Hs.
  inversion Hs as [|x l _ Hall]; subst.
  inversion Hall as [|y l' Hle _]; subst.
  vm_compute in Hle. now apply Hle.
Qed.

(** C5 (amended): for every user id u and date d, UserDaySlice(u, d)
    returns, for each of HourlySteps, HourlyIntensity and HourlyCalories,
    exactly the rows with Id = u whose ActivityHour's date portion equals
    d, in the order the loaded table has them; each of the three is in
    ascending order of ActivityHour when the loaded table is. *)
Theorem UserDaySlice_hourly_rows :
  forall (T : Tables) (u : Z) (d : Date),
    (forall r, In r (hour_steps (fst (UserDaySlice u d T))) <->
       In r (hourly_steps T) /\ Id r = u /\
       exists n, ActivityHour r = Some n /\ n / ns_per_day = d) /\
    (forall r, In r (hour_intensity (fst (UserDaySlice u d T))) <->
       In r (hourly_intensity T) /\ Id r = u /\
       exists n, ActivityHour r = Some n /\ n / ns_per_day = d) /\
    (forall r, In r (hour_calories (fst (UserDaySlice u d T))) <->
       In r (hourly_calories T) /\ Id r = u /\
       exists n, ActivityHour r = Some n /\ n / ns_per_day = d) /\
    hour_steps (fst (UserDaySlice u d T))
    = filter (fun r => (Id r =? u) && date_eq (ActivityHour r) (Some d)) (hourly_steps T) /\
    hour_intensity (fst (UserDaySlice u d T))
    = filter (fun r => (Id r =? u) && date_eq (ActivityHour r) (Some d)) (hourly_intensity T) /\
    hour_calories (fst (UserDaySlice u d T))
    = filter (fun r => (Id r =? u) && date_eq (ActivityHour r) (Some d)) (hourly_calories T) /\
    (ascending (hourly_steps T) -> ascending (hour_steps (fst (UserDaySlice u d T)))) /\
    (ascending (hourly_intensity T) -> ascending (hour_intensity (fst (UserDaySlice u d T)))) /\
    (ascending (hourly_calories T) -> ascending (hour_calories (fst (UserDaySlice u d T)))).
Proof.
  intros T u d. rewrite UserDaySlice_parts.
  cbn [fst hour_calories hour_intensity hour_steps].
  split; [intros r; apply in_get_user_df|].
  split; [intros r; apply in_get_user_df|].
  split; [intros r; apply in_get_user_df|].
  split; [apply get_user_df_filter|].
  split; [apply get_user_df_filter|].
  split; [apply get_user_df_filter|].
  split; [apply get_user_df_ascending|].
  split; apply get_user_df_ascending.
Qed.

Lemma UserDaySlice_hourly_rows_witness :
  ascending (hourly_calories scenario_tables) /\
  ascending (hour_calories (fst (UserDaySlice 1 (ymd 2016 4 12) scenario_tables))).
Proof.
  assert (Hs : ascending (hourly_calories scenario_tables)).
  { unfold ascending. cbn [hourly_calories scenario_tables].
    repeat constructor. vm_compute. discriminate. }
  split; [exact Hs|].
  exact (proj2 (proj2 (proj2 (proj2 (proj2 (proj2 (proj2 (proj2
           (UserDaySlice_hourly_rows scenario_tables 1 (ymd 2016 4 12)))))))))
         Hs).
Defined.

(** ** The daily slice *)

Lemma in_day_df (u : Z) (d : Date) (df : list (DailyActivityRow Timestamp)) r :
  In r (day_df u d df) <->
  In r df /\ Id r = u /\ ActivityDate r = Some (d * ns_per_day).
Proof.
  unfold day_df, user_df, mask, to_datetime_date.
  rewrite !filter_In, Z.eqb_eq, ts_eq_true.
  split.
  - intros [[Hin Hid] (n & Hn & Hd)]. injection Hd as <-. now repeat split.
  - intros (Hin & Hid & Hd). repeat split; try assumption.
    now exists (d * ns_per_day).
Qed.

Lemma midnight_iff (n : Z) (d : Date) :
  n / ns_per_day = d -> (n = d * ns_per_day <-> time_of_day n = 0).
Proof.
  unfold time_of_day. intros Hd.
  assert (Hns : ns_per_day <> 0) by (unfold ns_per_day; lia).
  pose proof (Z.div_mod n ns_per_day Hns) as Hdm.
  rewrite Hd in Hdm. lia.
Qed.

Lemma time_of_day_midnight (d : Date) : time_of_day (d * ns_per_day) = 0.
Proof.
  unfold time_of_day. apply Z.mod_mul. unfold ns_per_day. lia.
Qed.

(** C10: the daily slice keeps the rows of the user whose ActivityDate
    equals midnight of the selected date, whereas the hourly slices compare
    the date portion of ActivityHour; so a DailyActivity row of calendar
    date d is returned exactly when its ActivityDate is midnight of d, a
    row whose ActivityDate has a time of day other than zero is returned
    for no date, and the daily slice is then empty although the date has
    data. *)
Theorem day_df_matches_midnight_only :
  forall (T : Tables) (u : Z) (d : Date),
    (forall r, In r (slice_day_df (fst (UserDaySlice u d T))) <->
       In r (daily_activity T) /\ Id r = u /\ ActivityDate r = to_datetime_date d) /\
    (forall r n, ActivityDate r = Some n -> n / ns_per_day = d ->
       (In r (slice_day_df (fst (UserDaySlice u d T))) <->
        In r (daily_activity T) /\ Id r = u /\ time_of_day n = 0)) /\
    (forall r n, ActivityDate r = Some n -> time_of_day n <> 0 ->
       ~ In r (slice_day_df (fst (UserDaySlice u d T)))) /\
    (forall r, In r (hour_steps (fst (UserDaySlice u d T))) <->
       In r (hourly_steps T) /\ Id r = u /\
       exists n, ActivityHour r = Some n /\ n / ns_per_day = d) /\
    (date_of (ActivityDate activity_at_8) = Some (ymd 2016 4 12) /\
     day_df 1 (ymd 2016 4 12) [activity_at_8] = [] /\
     get_user_df 1 (ymd 2016 4 12) [mkHourlySteps 1 (at_hour (ymd 2016 4 12) 8) 400]
     = [mkHourlySteps 1 (at_hour (ymd 2016 4 12) 8) 400]).
Proof.
  intros T u d. rewrite UserDaySlice_parts. cbn [fst slice_day_df hour_steps].
  split; [intros r; apply in_day_df|].
  split; [|split; [|split]].
  - intros r n Hn Hd. rewrite in_day_df, Hn.
    rewrite <- (midnight_iff n d Hd).
    split; intros (Hin & Hid & Hm); repeat split; congruence.
  - intros r n Hn Htime Hin. apply in_day_df in Hin.
    destruct Hin as (_ & _ & Hd). rewrite Hn in Hd. injection Hd as ->.
    apply Htime. apply time_of_day_midnight.
  - intros r. apply in_get_user_df.
  - repeat split; reflexivity.
Qed.

(** ** The bounds of a user's dates *)

Lemma fold_left_min_le (r : list Z) (n : Z) :
  fold_left Z.min r n <= n /\ forall x, In x r -> fold_left Z.min r n <= x.
Proof.
  revert n. induction r as [|y r IH]; intros n; cbn [fold_left].
  - split; [lia|intros x []].
  - destruct (IH (Z.min n y)) as [Hle Hall].
    split; [lia|].
    intros x [<-|Hx]; [lia|now apply Hall].
Qed.

Lemma fold_left_min_in (r : list Z) (n : Z) :
  In (fold_left Z.min r n) (n :: r).
Proof.
  revert n. induction r as [|y r IH]; intros n; cbn [fold_left].
  - now left.
  - destruct (IH (Z.min n y)) as [E|Hin].
    + rewrite <- E. destruct (Z.min_spec n y) as [[_ ->]|[_ ->]];
        [now left|right; now left].
    + right. now right.
Qed.

Lemma fold_left_max_ge (r : list Z) (n : Z) :
  n <= fold_left Z.max r n /\ forall x, In x r -> x <= fold_left Z.max r n.
Proof.
  revert n. induction r as [|y r IH]; intros n; cbn [fold_left].
  - split; [lia|intros x []].
  - destruct (IH (Z.max n y)) as [Hle Hall].
    split; [lia|].
    intros x [<-|Hx]; [lia|now apply Hall].
Qed.

Lemma fold_left_max_in (r : list Z) (n : Z) :
  In (fold_left Z.max r n) (n :: r).
Proof.
  revert n. induction r as [|y r IH]; intros n; cbn [fold_left].
  - now left.
  - destruct (IH (Z.max n y)) as [E|Hin].
    + rewrite <- E. destruct (Z.max_spec n y) as [[_ ->]|[_ ->]];
        [right; now left|now left].
    + right. now right.
Qed.

Lemma in_dropna (xs : list Timestamp) (n : Z) : In n (dropna xs) <-> In (Some n) xs.
Proof.
  induction xs as [|[m|] xs IH]; cbn [dropna In].
  - tauto.
  - rewrite IH. split; intros [E|Hin]; try (now right); left; congruence.
  - rewrite IH. split; [now right|]. intros [E|Hin]; [discriminate|assumption].
Qed.



(** ** The queries leave the tables alone *)




(** ** Loading *)

Section LoadFacts.

Variable parse : string -> option Z.

Lemma to_datetime_returns (col : list Cell) (ts : list Timestamp) :
  to_datetime parse col = inr ts -> ts = map (cell_value parse) col.
Proof.
  revert ts. induction col as [|c col IH]; intros ts; cbn [to_datetime map].
  - unfold ret. now intros [= <-].
  - unfold bind, ret, raise, to_datetime_scalar.
    destruct c as [|s]; cbn [cell_value].
    + destruct (to_datetime parse col) as [e|ts']; [discriminate|].
      intros [= <-]. now rewrite (IH ts' eq_refl).
    + destruct (parse s) as [n|]; [|discriminate].
      destruct (to_datetime parse col) as [e|ts']; [discriminate|].
      intros [= <-]. now rewrite (IH ts' eq_refl).
Qed.


Lemma assign_column_map {R V R' : Type} (set : R -> V -> R') (f : R -> V) (df : list R) :
  assign_column set df (map f df) = map (fun r => set r (f r)) df.
Proof.
  unfold assign_column.
  induction df as [|r df IH]; cbn [map combine]; [reflexivity|].
  cbn [fst snd]. now rewrite IH.
Qed.

Lemma assign_column_map_map {A R V R' : Type} (set : R -> V -> R')
    (g : A -> R) (f : A -> V) (l : list A) :
  assign_column set (map g l) (map f l) = map (fun a => set (g a) (f a)) l.
Proof.
  unfold assign_column.
  induction l as [|a l IH]; cbn [map combine]; [reflexivity|].
  cbn [fst snd]. now rewrite IH.
Qed.

Lemma load_data_returns (csv : CsvFiles) (T : Tables) :
  load_data parse csv = inr T ->
  T = mkTables (loaded_activity parse csv) (loaded_sleep parse csv) (loaded_steps parse csv)
        (loaded_intensity parse csv) (loaded_calories parse csv)
        (merge_daily (loaded_activity parse csv) (loaded_sleep parse csv)).
Proof.
  unfold load_data, bind, ret.
  destruct (to_datetime parse (map activity_ActivityDate (dailyActivity_merged csv)))
    as [e|d1] eqn:E1; [discriminate|].
  destruct (to_datetime parse
              (map sleep_ActivityDate
                 (map rename_SleepDay_add_SleepHours (sleepDay_merged csv))))
    as [e|d2] eqn:E2; [discriminate|].
  destruct (to_datetime parse (map calories_ActivityHour (hourlyCalories_merged csv)))
    as [e|d3] eqn:E3; [discriminate|].
  destruct (to_datetime parse (map steps_ActivityHour (hourlySteps_merged csv)))
    as [e|d4] eqn:E4; [discriminate|].
  destruct (to_datetime parse (map intensity_ActivityHour (hourlyIntensities_merged csv)))
    as [e|d5] eqn:E5; [discriminate|].
  apply to_datetime_returns in E1, E2, E3, E4, E5. subst d1 d2 d3 d4 d5.
  rewrite !map_map, !assign_column_map, assign_column_map_map.
  intros [= <-].
  reflexivity.
Qed.


End LoadFacts.

(** C8: in the loaded DailySleep every row's SleepHours is its
    TotalMinutesAsleep divided by 60 in floating point, with no rounding
    step after the division (361 minutes are 0x1.8111111111111p+2 hours,
    the double that prints as 6.016666666666667);
    360 minutes are exactly 6.0 hours. *)
Theorem SleepHours_is_minutes_over_60 :
  forall (parse : string -> option Z) (csv : CsvFiles) (T : Tables),
    load_data parse csv = inr T ->
    Forall (fun s => SleepHours s
                     = PrimFloat.div (float_of_int64 (TotalMinutesAsleep s)) 60%float)
      (daily_sleep T) /\
    map TotalMinutesAsleep (daily_sleep T)
    = map sleepday_TotalMinutesAsleep (sleepDay_merged csv) /\
    (forall s, In s (daily_sleep T) -> TotalMinutesAsleep s = 360 ->
               SleepHours s = 6%float) /\
    truediv 360 60 = 6%float /\
    truediv 361 60 = 0x1.8111111111111p+2%float.
Proof.
  intros parse csv T Hload.
  apply load_data_returns in Hload. subst T. cbn [daily_sleep].
  assert (Hall : Forall (fun s => SleepHours s
                   = PrimFloat.div (float_of_int64 (TotalMinutesAsleep s)) 60%float)
                   (loaded_sleep parse csv)).
  { unfold loaded_sleep. apply Forall_forall. intros s Hs.
    apply in_map_iff in Hs. destruct Hs as (r & <- & _). reflexivity. }
  split; [exact Hall|].
  split; [unfold loaded_sleep; now rewrite map_map|].
  split; [|split; reflexivity].
  intros s Hs H360. rewrite Forall_forall in Hall.
  rewrite (Hall s Hs), H360. reflexivity.
Qed.

Lemma SleepHours_is_minutes_over_60_witness :
  load_data sample_parse sample_csv = inr sample_tables /\
  map SleepHours (daily_sleep sample_tables) = [6%float].
Proof.
  split; [reflexivity|].
  pose proof (SleepHours_is_minutes_over_60 sample_parse sample_csv sample_tables eq_refl)
    as (Hall & _).
  inversion Hall as [|s l Hs _]; subst. reflexivity.
Defined.



(** ** The user picker and the date picker *)

Lemma in_unique (xs : list Z) (x : Z) : In x (unique xs) <-> In x xs.
Proof.
  induction xs as [|y xs IH]; cbn [unique In]; [tauto|].
  rewrite filter_In, IH, negb_true_iff, Z.eqb_neq.
  destruct (Z.eq_dec y x) as [->|Hne]; [tauto|].
  split; [tauto|]. intros [E|Hin]; [tauto|]. right. split; [assumption|congruence].
Qed.

Lemma NoDup_unique (xs : list Z) : NoDup (unique xs).
Proof.
  induction xs as [|y xs IH]; cbn [unique]; constructor.
  - rewrite filter_In, negb_true_iff, Z.eqb_neq. intros [_ Hne]. now apply Hne.
  - now apply NoDup_filter.
Qed.

Lemma filter_all {A : Type} (p : A -> bool) (l : list A) :
  (forall x, In x l -> p x = true) -> filter p l = l.
Proof.
  induction l as [|x l IH]; intros H; cbn [filter]; [reflexivity|].
  rewrite (H x (or_introl eq_refl)), IH; [reflexivity|].
  intros y Hy. apply H. now right.
Qed.

Lemma filter_none {A : Type} (p : A -> bool) (l : list A) :
  (forall x, In x l -> p x = false) -> filter p l = [].
Proof.
  induction l as [|x l IH]; intros H; cbn [filter]; [reflexivity|].
  rewrite (H x (or_introl eq_refl)). apply IH.
  intros y Hy. apply H. now right.
Qed.

Lemma unique_NoDup (xs : list Z) : NoDup xs -> unique xs = xs.
Proof.
  induction 1 as [|x xs Hnotin Hnd IH]; cbn [unique]; [reflexivity|].
  rewrite IH. f_equal. apply filter_all.
  intros y Hy. apply negb_true_iff, Z.eqb_neq. congruence.
Qed.

Lemma mask_mask {A : Type} (p q : A -> bool) (l : list A) :
  mask q (mask p l) = filter (fun x => p x && q x) l.
Proof.
  unfold mask. induction l as [|x l IH]; cbn [filter]; [reflexivity|].
  destruct (p x); cbn [filter andb]; [destruct (q x)|]; now rewrite IH.
Qed.

Lemma filter_nonempty {A : Type} (p : A -> bool) (l : list A) :
  filter p l <> [] <-> exists x, In x l /\ p x = true.
Proof.
  split.
  - destruct (filter p l) as [|x r] eqn:E; [intros H; now destruct H|intros _].
    exists x. apply filter_In. rewrite E. now left.
  - intros (x & Hx & Hp) E.
    assert (Hin : In x (filter p l)) by (apply filter_In; now split).
    rewrite E in Hin. destruct Hin.
Qed.

(** X1: the user picker offers each id of DailyActivity once, and nothing
    else, so a user it offers has at least one row; when no id repeats in
    the table the options are the Id column itself. *)
Theorem user_options_are_the_users :
  forall df : list (DailyActivityRow Timestamp),
    NoDup (user_options df) /\
    (forall u, In u (user_options df) <-> exists r, In r df /\ Id r = u) /\
    (forall u, In u (user_options df) <-> user_df u df <> []) /\
    (NoDup (map Id df) -> user_options df = map Id df).
Proof.
  intros df. unfold user_options.
  assert (Hin : forall u, In u (unique (map Id df)) <-> exists r, In r df /\ Id r = u).
  { intros u. rewrite in_unique, in_map_iff.
    split; intros (r & H1 & H2); exists r; now split. }
  split; [apply NoDup_unique|].
  split; [exact Hin|].
  split; [|apply unique_NoDup].
  intros u. rewrite Hin. unfold user_df, mask. rewrite filter_nonempty.
  split; intros (r & Hr & Hid); exists r; (split; [assumption|]).
  - now apply Z.eqb_eq.
  - now apply Z.eqb_eq in Hid.
Qed.

Lemma user_dates_bounds (df : list (DailyActivityRow Timestamp)) (u n : Z) :
  In n (user_dates u df) ->
  exists lo hi, user_min_date u df = Some lo /\ user_max_date u df = Some hi /\
                In lo (user_dates u df) /\ In hi (user_dates u df) /\ lo <= n <= hi.
Proof.
  unfold user_min_date, user_max_date, ts_min, ts_max, user_dates.
  destruct (dropna (map ActivityDate (user_df u df))) as [|m r]; [intros []|].
  intros Hn.
  exists (fold_left Z.min r m), (fold_left Z.max r m).
  split; [reflexivity|]. split; [reflexivity|].
  split; [apply fold_left_min_in|]. split; [apply fold_left_max_in|].
  destruct (fold_left_min_le r m) as [Hmin Hmins].
  destruct (fold_left_max_ge r m) as [Hmax Hmaxs].
  destruct Hn as [<-|Hn]; [lia|].
  specialize (Hmins n Hn). specialize (Hmaxs n Hn). lia.
Qed.

Lemma in_user_dates (df : list (DailyActivityRow Timestamp)) (u n : Z) :
  In n (user_dates u df) <-> exists r, In r df /\ Id r = u /\ ActivityDate r = Some n.
Proof.
  unfold user_dates, user_df, mask. rewrite in_dropna, in_map_iff.
  split.
  - intros (r & Hd & Hr). apply filter_In in Hr. destruct Hr as [Hr Hid].
    exists r. apply Z.eqb_eq in Hid. now repeat split.
  - intros (r & Hr & Hid & Hd). exists r. split; [assumption|].
    apply filter_In. split; [assumption|]. now apply Z.eqb_eq.
Qed.

(** X2: every date a user has a row for lies within the bounds handed to
    the date picker, as an instant and as a calendar day. *)
Theorem user_rows_within_picker_bounds :
  forall (df : list (DailyActivityRow Timestamp)) (u : Z) (r : DailyActivityRow Timestamp) (n : Z),
    In r df -> Id r = u -> ActivityDate r = Some n ->
    exists lo hi,
      user_min_date u df = Some lo /\ user_max_date u df = Some hi /\
      lo <= n <= hi /\
      lo / ns_per_day <= n / ns_per_day <= hi / ns_per_day.
Proof.
  intros df u r n Hr Hid Hd.
  assert (Hn : In n (user_dates u df)) by (apply in_user_dates; now exists r).
  destruct (user_dates_bounds df u n Hn) as (lo & hi & Hlo & Hhi & _ & _ & Hle).
  exists lo, hi. repeat split; try assumption; try lia;
    apply Z.div_le_mono; unfold ns_per_day; lia.
Qed.

Lemma user_rows_within_picker_bounds_witness :
  exists lo hi,
    user_min_date 1 (daily_activity three_days) = Some lo /\
    user_max_date 1 (daily_activity three_days) = Some hi /\
    lo <= ymd 2016 4 11 * ns_per_day <= hi /\
    lo / ns_per_day <= ymd 2016 4 11 * ns_per_day / ns_per_day <= hi / ns_per_day.
Proof.
  apply (user_rows_within_picker_bounds (daily_activity three_days) 1
           (sample_activity 1 (at_hour (ymd 2016 4 11) 0))).
  - cbn. right. right. right. now left.
  - reflexivity.
  - reflexivity.
Defined.

(** X3: when a bound of the date picker is a midnight, picking it gives a
    daily slice that is not empty. *)
Theorem picked_bound_has_a_row :
  forall (df : list (DailyActivityRow Timestamp)) (u b : Z),
    user_min_date u df = Some b \/ user_max_date u df = Some b ->
    time_of_day b = 0 ->
    day_df u (b / ns_per_day) df <> [].
Proof.
  intros df u b Hb Hmid.
  assert (Hin : In b (user_dates u df)).
  { unfold user_min_date, user_max_date, ts_min, ts_max, user_dates in *.
    destruct (dropna (map ActivityDate (user_df u df))) as [|m r];
      [destruct Hb; discriminate|].
    destruct Hb as [[= <-]|[= <-]]; [apply fold_left_min_in|apply fold_left_max_in]. }
  apply in_user_dates in Hin. destruct Hin as (r & Hr & Hid & Hd).
  assert (Hrow : In r (day_df u (b / ns_per_day) df)).
  { apply in_day_df. repeat split; try assumption.
    rewrite Hd. f_equal. now apply (midnight_iff b (b / ns_per_day) eq_refl). }
  intros E. rewrite E in Hrow. destruct Hrow.
Qed.

Lemma picked_bound_has_a_row_witness :
  day_df 1 (ymd 2016 4 10 * ns_per_day / ns_per_day) (daily_activity three_days) <> [].
Proof.
  apply (picked_bound_has_a_row (daily_activity three_days) 1 (ymd 2016 4 10 * ns_per_day)).
  - left. reflexivity.
  - reflexivity.
Defined.

(** ** The sums of the day *)






(** ** How the hourly slices compose *)

Lemma filter_filter_and {A : Type} (p q : A -> bool) (l : list A) :
  filter q (filter p l) = filter (fun x => p x && q x) l.
Proof. exact (mask_mask p q l). Qed.

Section GetUserDfTwice.

Context {R : Type} `{HasId R} `{HasActivityHour R}.

(** X6: slicing a slice again by the same user and date changes nothing,
    and slicing it by another user or another date leaves no row: the
    slices of different users or days share no row. *)
Theorem get_user_df_of_a_slice :
  forall (u u' : Z) (d d' : Date) (df : list R),
    get_user_df u d (get_user_df u' d' df)
    = if (u =? u') && (d =? d') then get_user_df u d df else [].
Proof.
  intros u u' d d' df.
  rewrite !get_user_df_filter, filter_filter_and.
  destruct ((u =? u') && (d =? d')) eqn:E.
  - apply andb_true_iff in E. destruct E as [Eu Ed].
    apply Z.eqb_eq in Eu, Ed. subst u' d'.
    apply filter_ext. intros r. apply andb_diag.
  - apply filter_none. intros r _.
    destruct ((Id r =? u') && date_eq (ActivityHour r) (Some d')) eqn:E1; [|reflexivity].
    destruct ((Id r =? u) && date_eq (ActivityHour r) (Some d)) eqn:E2; [|reflexivity].
    exfalso.
    apply andb_true_iff in E1, E2. destruct E1 as [I1 D1], E2 as [I2 D2].
    apply Z.eqb_eq in I1, I2. apply date_eq_true in D1, D2.
    destruct D1 as (n1 & Hn1 & Hd1), D2 as (n2 & Hn2 & Hd2).
    rewrite Hn1 in Hn2. injection Hn2 as <-.
    apply andb_false_iff in E. destruct E as [E|E]; apply Z.eqb_neq in E; congruence.
Qed.

(** X7: a row with an hour belongs to the slice of its own user and day
    and to no other; a row whose hour is missing belongs to none. *)
Theorem row_in_exactly_one_slice :
  forall (df : list R) (r : R),
    In r df ->
    (forall n, ActivityHour r = Some n ->
       In r (get_user_df (Id r) (n / ns_per_day) df) /\
       forall u d, In r (get_user_df u d df) -> u = Id r /\ d = n / ns_per_day) /\
    (ActivityHour r = NaT -> forall u d, ~ In r (get_user_df u d df)).
Proof.
  intros df r Hr. split.
  - intros n Hn. split.
    + apply in_get_user_df. repeat split; try assumption. now exists n.
    + intros u d Hin. apply in_get_user_df in Hin.
      destruct Hin as (_ & Hid & m & Hm & Hd).
      rewrite Hn in Hm. injection Hm as <-. now split.
  - intros Hnat u d Hin. apply in_get_user_df in Hin.
    destruct Hin as (_ & _ & m & Hm & _). rewrite Hnat in Hm. discriminate.
Qed.

End GetUserDfTwice.

Lemma row_in_exactly_one_slice_witness :
  In (mkHourlySteps 1 (at_hour (ymd 2016 4 12) 9) 500)
    (get_user_df 1 ((ymd 2016 4 12 * ns_per_day + 9 * ns_per_hour) / ns_per_day)
       steps_latest_first).
Proof.
  exact (proj1 (proj1 (row_in_exactly_one_slice steps_latest_first
                         (mkHourlySteps 1 (at_hour (ymd 2016 4 12) 9) 500)
                         (or_introl eq_refl))
                  (ymd 2016 4 12 * ns_per_day + 9 * ns_per_hour) eq_refl)).
Defined.

(** ** The combined hourly view *)

Lemma ts_key_eq_sym (a b : Timestamp) : ts_key_eq a b = ts_key_eq b a.
Proof. destruct a, b; cbn [ts_key_eq]; try reflexivity. apply Z.eqb_sym. Qed.

Lemma ts_key_eq_trans_l (a b h : Timestamp) :
  ts_key_eq a b = true -> ts_key_eq b h = ts_key_eq a h.
Proof. intros E. apply ts_key_eq_true in E. now subst. Qed.

Lemma filter_map_comm {A B : Type} (f : A -> B) (p : B -> bool) (l : list A) :
  filter p (map f l) = map f (filter (fun x => p (f x)) l).
Proof.
  induction l as [|x l IH]; cbn [map filter]; [reflexivity|].
  destruct (p (f x)); cbn [map]; now rewrite IH.
Qed.

Lemma existsb_map_comm {A B : Type} (f : A -> B) (p : B -> bool) (l : list A) :
  existsb p (map f l) = existsb (fun x => p (f x)) l.
Proof.
  induction l as [|x l IH]; cbn [map existsb]; [reflexivity|]. now rewrite IH.
Qed.

(** The intensity rows joined to a calories row. *)
Lemma joined_intensity_length (c : HourlyCaloriesRow Timestamp)
    (hi : list (HourlyIntensityRow Timestamp)) :
  length (filter (fun p : Timestamp * Z => ts_key_eq (ActivityHour c) (fst p))
            (map (fun i => (ActivityHour i, TotalIntensity i)) hi))
  = length (rows_at (ActivityHour c) hi).
Proof.
  rewrite filter_map_comm, length_map. cbn [fst]. unfold rows_at.
  f_equal. apply filter_ext. intros i. apply ts_key_eq_sym.
Qed.

(** X8: an hour that m rows of [hour_calories] and k rows of
    [hour_intensity] carry has m times k rows in the combined view: none
    when either side lacks it, one when both have it once, and repeated
    rows when a table repeats the hour. *)
Theorem hourly_data_rows_per_hour :
  forall (hc : list (HourlyCaloriesRow Timestamp)) (hi : list (HourlyIntensityRow Timestamp))
         (h : Timestamp),
    length (filter (fun row => ts_key_eq (data_ActivityHour row) h) (hourly_data hc hi))
    = (length (rows_at h hc) * length (rows_at h hi))%nat.
Proof.
  intros hc hi h. unfold hourly_data, merge_inner.
  induction hc as [|c hc IH]; [reflexivity|].
  cbn [flat_map]. rewrite filter_app, length_app, IH. clear IH.
  rewrite filter_map_comm, length_map. cbn [data_ActivityHour].
  unfold rows_at at 3. cbn [filter].
  destruct (ts_key_eq (ActivityHour c) h) eqn:E.
  - rewrite filter_all by reflexivity.
    rewrite joined_intensity_length.
    apply ts_key_eq_true in E. rewrite E. cbn [length]. unfold rows_at. lia.
  - rewrite filter_none by reflexivity. reflexivity.
Qed.

Lemma calories_part_both (c : HourlyCaloriesRow Timestamp) (intensity : Z) :
  calories_part (mkHourlyData (Id c) (ActivityHour c) (Calories c) intensity) = c.
Proof. now destruct c. Qed.

(** X9: when no hour repeats in [hour_intensity], the combined view
    follows [hour_calories]: its calories columns are the rows of
    [hour_calories] whose hour has an intensity row, once each and in
    their order, so it is no longer than [hour_calories]; and they are
    all of [hour_calories] when every hour of it has an intensity row. *)
Theorem hourly_data_follows_calories :
  forall (hc : list (HourlyCaloriesRow Timestamp)) (hi : list (HourlyIntensityRow Timestamp)),
    NoDup (map ActivityHour hi) ->
    map calories_part (hourly_data hc hi) = filter (has_intensity hi) hc /\
    (length (hourly_data hc hi) <= length hc)%nat /\
    ((forall c, In c hc -> has_intensity hi c = true) ->
     map calories_part (hourly_data hc hi) = hc).
Proof.
  intros hc hi Hnd.
  assert (Hmain : map calories_part (hourly_data hc hi) = filter (has_intensity hi) hc).
  { unfold hourly_data, merge_inner.
    induction hc as [|c hc IH]; [reflexivity|].
    cbn [flat_map filter]. rewrite map_app, IH. clear IH.
    set (pairs := map (fun i => (ActivityHour i, TotalIntensity i)) hi).
    assert (Hone : (length (filter (fun p : Timestamp * Z =>
                                      ts_key_eq (ActivityHour c) (fst p)) pairs) <= 1)%nat).
    { apply (filter_unique_key fst _ (ActivityHour c)).
      - unfold pairs. rewrite map_map. exact Hnd.
      - intros p Hp. apply ts_key_eq_true in Hp. now symmetry. }
    assert (Hhas : has_intensity hi c
                   = existsb (fun p : Timestamp * Z => ts_key_eq (ActivityHour c) (fst p)) pairs).
    { unfold has_intensity, pairs. now rewrite existsb_map_comm. }
    rewrite Hhas.
    destruct (filter (fun p : Timestamp * Z => ts_key_eq (ActivityHour c) (fst p)) pairs)
      as [|p [|p' ms]] eqn:E.
    - apply existsb_false_filter in E. now rewrite E.
    - assert (Hex : existsb (fun p : Timestamp * Z => ts_key_eq (ActivityHour c) (fst p)) pairs
                    = true).
      { destruct (existsb _ pairs) eqn:Ex; [reflexivity|].
        apply existsb_false_filter in Ex. rewrite Ex in E. discriminate. }
      rewrite Hex. cbn [map app]. now rewrite calories_part_both.
    - cbn [length] in Hone. lia. }
  split; [exact Hmain|].
  split.
  - rewrite <- (length_map calories_part), Hmain. apply filter_length_le.
  - intros Hall. rewrite Hmain. now apply filter_all.
Qed.

Lemma hourly_data_follows_calories_witness :
  NoDup (map ActivityHour (hourly_intensity scenario_tables)) /\
  map calories_part (hourly_data (hourly_calories scenario_tables)
                       (hourly_intensity scenario_tables))
  = [mkHourlyCalories 1 (at_hour (ymd 2016 4 12) 8) 50].
Proof.
  assert (Hnd : NoDup (map ActivityHour (hourly_intensity scenario_tables))).
  { constructor; [intros []|constructor]. }
  split; [exact Hnd|].
  exact (proj1 (hourly_data_follows_calories (hourly_calories scenario_tables)
                  (hourly_intensity scenario_tables) Hnd)).
Defined.

(** ** The daily join, row by row *)

Lemma merge_daily_unique_keys act sleep :
  NoDup (map sleep_key sleep) -> map activity (merge_daily act sleep) = act.
Proof.
  intros Hnd. unfold merge_daily.
  apply merge_left_one_to_one; try reflexivity.
  intros a _.
  apply (filter_unique_key sleep_key _ (Id a, ActivityDate a)); [assumption|].
  intros s Hs. now apply on_Id_ActivityDate_true.
Qed.

(** X10: when no two DailySleep rows share their key, the cohort means of
    Steps, Distance and Calories Burned are the means of the DailyActivity
    columns themselves: the join adds no weight to any day. *)
Theorem cohort_means_of_activity_columns :
  forall (act : list (DailyActivityRow Timestamp)) (sleep : list (DailySleepRow Timestamp)),
    NoDup (map sleep_key sleep) ->
    avg_steps (merge_daily act sleep) = mean_int (map TotalSteps act) /\
    avg_distance (merge_daily act sleep) = mean (map TotalDistance act) /\
    avg_calories (merge_daily act sleep) = mean_int (map activity_Calories act).
Proof.
  intros act sleep Hnd.
  pose proof (merge_daily_unique_keys act sleep Hnd) as Hact.
  unfold avg_steps, avg_distance, avg_calories.
  assert (Hs : map Steps (merge_daily act sleep) = map TotalSteps act).
  { rewrite <- Hact at 2. now rewrite map_map. }
  assert (Hd : map Distance (merge_daily act sleep) = map TotalDistance act).
  { rewrite <- Hact at 2. now rewrite map_map. }
  assert (Hc : map Calories_Burned (merge_daily act sleep) = map activity_Calories act).
  { rewrite <- Hact at 2. now rewrite map_map. }
  now rewrite Hs, Hd, Hc.
Qed.

Lemma cohort_means_of_activity_columns_witness :
  avg_steps (merge_daily [activity_2016_04_12; sample_activity 1 (at_hour (ymd 2016 4 11) 0)]
               [sample_sleep 1 (at_hour (ymd 2016 4 12) 0) 360])
  = mean_int [10000; 10000].
Proof.
  assert (Hnd : NoDup (map sleep_key [sample_sleep 1 (at_hour (ymd 2016 4 12) 0) 360])).
  { constructor; [intros []|constructor]. }
  exact (proj1 (cohort_means_of_activity_columns
                  [activity_2016_04_12; sample_activity 1 (at_hour (ymd 2016 4 11) 0)]
                  [sample_sleep 1 (at_hour (ymd 2016 4 12) 0) 360] Hnd)).
Defined.

(** X11: the rows of DailyCombined are exactly these: a DailyActivity row
    with null sleep columns when no DailySleep row has its key, and a
    DailyActivity row with the minutes and hours of a DailySleep row of
    the same Id and ActivityDate; a DailySleep row whose key no
    DailyActivity row has contributes nothing. *)
Theorem merge_daily_rows :
  forall (act : list (DailyActivityRow Timestamp)) (sleep : list (DailySleepRow Timestamp))
         (c : DailyCombinedRow),
    In c (merge_daily act sleep) <->
    In (activity c) act /\
    ((has_sleep sleep c = false /\ c = without_sleep (activity c)) \/
     (exists s, In s sleep /\ sleep_key s = activity_key (activity c) /\
                c = with_sleep (activity c) s)).
Proof.
  intros act sleep c. unfold merge_daily. rewrite in_merge_left. split.
  - intros (a & Ha & [[E Hc]|(s & Hs & Hon & Hc)]); subst c;
      cbn [activity without_sleep with_sleep]; (split; [assumption|]).
    + left. split; [|reflexivity]. unfold has_sleep. cbn [activity].
      now apply existsb_false_filter.
    + right. exists s. split; [assumption|]. split; [|reflexivity].
      now apply on_Id_ActivityDate_true.
  - intros (Ha & [[Hno Hc]|(s & Hs & Hkey & Hc)]); exists (activity c); (split; [assumption|]).
    + left. split; [|assumption]. now apply existsb_false_filter.
    + right. exists s. split; [assumption|]. split; [|assumption].
      now apply on_Id_ActivityDate_true.
Qed.

(** X12: in the DailyCombined that [load_data] returns, every row comes
    from a loaded DailyActivity row, and its Sleeping Hours is null
    together with its minutes asleep, or is those minutes over 60. *)
Theorem loaded_combined_sleep_columns :
  forall (parse : string -> option Z) (csv : CsvFiles) (T : Tables),
    load_data parse csv = inr T ->
    forall c, In c (daily_combined T) ->
      In (activity c) (daily_activity T) /\
      match combined_TotalMinutesAsleep c with
      | None => PrimFloat.is_nan (Sleeping_Hours c) = true
      | Some minutes =>
          Sleeping_Hours c = PrimFloat.div (float_of_int64 minutes) 60%float
      end.
Proof.
  intros parse csv T Hload c Hc.
  apply load_data_returns in Hload. subst T. cbn [daily_combined daily_activity] in *.
  unfold merge_daily in Hc. apply in_merge_left in Hc.
  destruct Hc as (a & Ha & [[_ ->]|(s & Hs & _ & ->)]);
    cbn [activity without_sleep with_sleep combined_TotalMinutesAsleep Sleeping_Hours];
    (split; [assumption|]).
  - reflexivity.
  - unfold loaded_sleep in Hs. apply in_map_iff in Hs.
    destruct Hs as (r & <- & _). reflexivity.
Qed.

Lemma loaded_combined_sleep_columns_witness :
  map combined_TotalMinutesAsleep (daily_combined sample_tables) = [Some 360; None] /\
  Forall (fun c => In (activity c) (daily_activity sample_tables))
    (daily_combined sample_tables).
Proof.
  split; [reflexivity|].
  apply Forall_forall. intros c Hc.
  exact (proj1 (loaded_combined_sleep_columns sample_parse sample_csv sample_tables
                  eq_refl c Hc)).
Defined.

(** ** Which error a load raises *)





(** ** The guards of the page *)


(** ** The picker never meets a missing bound *)

(** X15: for a user the picker offers, in a table where every row has a
    date, both bounds of the date picker are dates of that user's rows,
    the lower one no later than the upper one: the bounds are missing
    for no user that can be picked. *)
Theorem offered_user_has_bounds :
  forall (df : list (DailyActivityRow Timestamp)) (u : Z),
    In u (user_options df) ->
    (forall r, In r df -> ActivityDate r <> NaT) ->
    exists lo hi,
      user_min_date u df = Some lo /\ user_max_date u df = Some hi /\
      In lo (user_dates u df) /\ In hi (user_dates u df) /\ lo <= hi.
Proof.
  intros df u Hu Hdated.
  unfold user_options in Hu. apply in_unique, in_map_iff in Hu.
  destruct Hu as (r & Hid & Hr).
  destruct (ActivityDate r) as [n|] eqn:Hn; [|now destruct (Hdated r Hr)].
  assert (Hin : In n (user_dates u df)) by (apply in_user_dates; now exists r).
  destruct (user_dates_bounds df u n Hin) as (lo & hi & Hlo & Hhi & Hlo' & Hhi' & Hle).
  exists lo, hi. repeat split; try assumption. lia.
Qed.

Lemma offered_user_has_bounds_witness :
  exists lo hi,
    user_min_date 2 (daily_activity three_days) = Some lo /\
    user_max_date 2 (daily_activity three_days) = Some hi /\
    In lo (user_dates 2 (daily_activity three_days)) /\
    In hi (user_dates 2 (daily_activity three_days)) /\ lo <= hi.
Proof.
  apply (offered_user_has_bounds (daily_activity three_days) 2).
  - cbn. right. now left.
  - intros r Hr. cbn in Hr.
    repeat (destruct Hr as [<-|Hr]; [discriminate|]). destruct Hr.
Defined.

(** ** What a load leaves untouched *)

(** X16: a load that returns changes the date column of each table and
    nothing else: with the date column set aside, each loaded table is
    its file, row by row and in the file's order (for the sleep table,
    its Id and minutes asleep), and DailyCombined is the join of the
    loaded DailyActivity and DailySleep. *)
Theorem load_data_keeps_other_columns :
  forall (parse : string -> option Z) (csv : CsvFiles) (T : Tables),
    load_data parse csv = inr T ->
    map (fun r => set_activity_ActivityDate r tt) (daily_activity T)
    = map (fun r => set_activity_ActivityDate r tt) (dailyActivity_merged csv) /\
    map (fun s => (Id s, TotalMinutesAsleep s)) (daily_sleep T)
    = map (fun r => (sleepday_Id r, sleepday_TotalMinutesAsleep r)) (sleepDay_merged csv) /\
    map (fun r => set_steps_ActivityHour r tt) (hourly_steps T)
    = map (fun r => set_steps_ActivityHour r tt) (hourlySteps_merged csv) /\
    map (fun r => set_intensity_ActivityHour r tt) (hourly_intensity T)
    = map (fun r => set_intensity_ActivityHour r tt) (hourlyIntensities_merged csv) /\
    map (fun r => set_calories_ActivityHour r tt) (hourly_calories T)
    = map (fun r => set_calories_ActivityHour r tt) (hourlyCalories_merged csv) /\
    daily_combined T = merge_daily (daily_activity T) (daily_sleep T).
Proof.
  intros parse csv T Hload.
  apply load_data_returns in Hload. subst T.
  cbn [daily_activity daily_sleep hourly_steps hourly_intensity hourly_calories
         daily_combined].
  unfold loaded_activity, loaded_sleep, loaded_steps, loaded_intensity, loaded_calories.
  rewrite !map_map. repeat split.
Qed.

Lemma load_data_keeps_other_columns_witness :
  map (fun r => set_steps_ActivityHour r tt) (hourly_steps sample_tables)
  = map (fun r => set_steps_ActivityHour r tt) (hourlySteps_merged sample_csv).
Proof.
  exact (proj1 (proj2 (proj2
           (load_data_keeps_other_columns sample_parse sample_csv sample_tables eq_refl)))).
Defined.
